(** * pytest-mcp: the plugin hooks of [src/pytest_mcp/plugin.py]

    A shallow embedding of the five pytest hooks the plugin registers
    ([pytest_configure], [pytest_collection_modifyitems],
    [pytest_addoption], [pytest_report_header],
    [pytest_exception_interact]) together with the small part of the host
    objects those hooks touch, followed by the properties of the hooks. *)

From Stdlib Require Import PrimFloat.
From stdpp Require Import gmap strings list fin_maps.

Local Open Scope string_scope.
Local Open Scope list_scope.

(** ** Python values *)

(** The values a command-line option or an exception payload can hold.
    A [float] is an IEEE binary64 number, as in CPython. *)
Inductive pyval : Type :=
  | PyNone
  | PyBool (b : bool)
  | PyInt (z : Z)
  | PyFloat (f : float)
  | PyStr (s : string).

(** [bool(v)], the truth value that Python's [not] negates. *)
Definition truthy (v : pyval) : bool :=
  match v with
  | PyNone => false
  | PyBool b => b
  | PyInt z => negb (z =? 0)%Z
  | PyFloat f => negb (PrimFloat.eqb f 0%float)
  | PyStr s => negb (String.eqb s "")
  end.

(** [x in xs] for a list of strings. *)
Definition py_in (x : string) (xs : list string) : bool :=
  existsb (String.eqb x) xs.

(** An attribute namespace ([config.option] is an [argparse.Namespace]):
    the attributes that are present, by name. *)
Abbreviation namespace := (gmap string pyval).

(** ** Host objects *)

(** Test items live in a store and are handled by reference: the list the
    collection hook receives holds references, and [add_marker] mutates
    the object behind one. *)
Definition loc := nat.

(** The part of a [pytest.Item] the hooks read or write.  [fixturenames]
    is [None] for an item without that attribute (only function items have
    it); [own_markers] are the names of the marks applied to the item. *)
Record Item : Type := mkItem {
  nodeid : string;
  fixturenames : option (list string);
  own_markers : list string
}.

(** The part of a [pytest.Config] the hooks read or write: the option
    namespace and the lines added to ini values, oldest first, each with
    the name of the ini value it was added to. *)
Record Config : Type := mkConfig {
  cfg_option : namespace;
  inilines : list (string * string)
}.

(** Argparse actions and types used by the plugin's options. *)
Inductive Action : Type := store | store_true.
Inductive ArgType : Type := ty_float.

(** The arguments of one [group.addoption] call. *)
Record OptSpec : Type := mkOpt {
  opt_name : string;
  opt_action : Action;
  opt_type : option ArgType;
  opt_default : pyval;
  opt_help : string
}.

(** A [pytest.Parser]: its option groups by name, each with the options
    added to it, oldest first. *)
Abbreviation Parser := (gmap string (list OptSpec)).

(** An exception class, by its [__name__]. *)
Record PyClass : Type := mkClass {
  class_name : string
}.

(** [call.excinfo]: the class of the exception ([.type]) and the exception
    itself ([.value]). *)
Record ExceptionInfo : Type := mkExc {
  ei_type : PyClass;
  ei_value : pyval
}.

Record CallInfo : Type := mkCall {
  excinfo : option ExceptionInfo
}.

(** ** Effects: the item store, the module logger, and exceptions *)

Inductive Level : Type := DEBUG | ERROR.

(** The item store, the records the module logger has produced, oldest
    first, and whether that logger is enabled for [DEBUG]
    ([logger.isEnabledFor(logging.DEBUG)]; it is not at the default level,
    [WARNING]).  The logger is taken not to be set above [ERROR]. *)
Record World : Type := mkWorld {
  heap : loc -> Item;
  log : list (Level * string);
  debug_enabled : bool
}.

(** [ValueError] carries the option names the host found already added. *)
Inductive PyErr : Type :=
  | AttributeError (attr : string)
  | ValueError (conflict : list string).

Inductive Res (A : Type) : Type :=
  | Ok (a : A)
  | Raise (e : PyErr).
Arguments Ok {A} a.
Arguments Raise {A} e.

(** Code that works on a mutable object of type [S] either returns or
    raises; what it did to the object before raising stays done. *)
Definition ST (S A : Type) : Type := S -> Res A * S.

(** A hook that runs in a world. *)
Definition M (A : Type) : Type := ST World A.

Definition ret {S A} (a : A) : ST S A := fun s => (Ok a, s).

Definition bind {S A B} (m : ST S A) (k : A -> ST S B) : ST S B :=
  fun s => match m s with
           | (Ok a, s') => k a s'
           | (Raise e, s') => (Raise e, s')
           end.

Definition raise {S A} (e : PyErr) : ST S A := fun s => (Raise e, s).

Declare Scope hook_scope.
Delimit Scope hook_scope with hook.
Notation "x <- m ;; k" := (bind m (fun x => k))
  (at level 100, m at next level, right associativity) : hook_scope.
Notation "m ;; k" := (bind m (fun _ => k))
  (at level 100, right associativity) : hook_scope.
Local Open Scope hook_scope.

(** [for x in xs: body(x)] *)
Fixpoint for_each {A} (xs : list A) (body : A -> M unit) : M unit :=
  match xs with
  | [] => ret tt
  | x :: rest => body x ;; for_each rest body
  end.

(** [if b: body] *)
Definition when (b : bool) (body : M unit) : M unit :=
  if b then body else ret tt.

(** *** Attribute access on a namespace *)

Definition hasattr (ns : namespace) (name : string) : bool :=
  bool_decide (is_Some (ns !! name)).

(** [ns.name]: raises [AttributeError] when the attribute is missing. *)
Definition getattr (ns : namespace) (name : string) : M pyval :=
  match ns !! name with
  | Some v => ret v
  | None => raise (AttributeError name)
  end.

Definition setattr (ns : namespace) (name : string) (v : pyval) : namespace :=
  <[name := v]> ns.

(** *** Attribute access on an item *)

Definition item_hasattr_fixturenames (item : loc) : M bool :=
  fun w => (Ok (bool_decide (is_Some (fixturenames (heap w item)))), w).

(** [getattr(item, "fixturenames", default)] *)
Definition item_getattr_fixturenames (item : loc) (dflt : list string)
  : M (list string) :=
  fun w => (Ok (default dflt (fixturenames (heap w item))), w).

Definition item_nodeid (item : loc) : M string :=
  fun w => (Ok (nodeid (heap w item)), w).

(** [item.add_marker(pytest.mark.<name>)]: the mark is appended to the
    item's own markers. *)
Definition append_marker (name : string) (it : Item) : Item :=
  mkItem (nodeid it) (fixturenames it) (own_markers it ++ [name]).

Definition add_marker (item : loc) (name : string) : M unit :=
  fun w => (Ok tt,
            mkWorld (fun l => if decide (l = item)
                              then append_marker name (heap w l)
                              else heap w l)
                    (log w) (debug_enabled w)).

(** *** The logger *)

Definition logger_emit (lvl : Level) (msg : string) : M unit :=
  fun w => (Ok tt, mkWorld (heap w) (log w ++ [(lvl, msg)]) (debug_enabled w)).

(** [logger.debug(msg)]: a record is made only when the logger is enabled
    for [DEBUG]. *)
Definition logger_debug (msg : string) : M unit :=
  fun w => if debug_enabled w then logger_emit DEBUG msg w else ret tt w.

(** [logger.error(msg)] *)
Definition logger_error (msg : string) : M unit := logger_emit ERROR msg.

(** *** Host methods on a config and on a parser *)

(** [config.addinivalue_line(name, line)] *)
Definition addinivalue_line (name line : string) (config : Config) : Config :=
  mkConfig (cfg_option config) (inilines config ++ [(name, line)]).

Definition set_option (name : string) (v : pyval) (config : Config) : Config :=
  mkConfig (setattr (cfg_option config) name v) (inilines config).

(** [parser.getgroup(name)]: the group of that name, created empty when
    the parser has none.  The group is referred to by its name. *)
Definition getgroup (name : string) : ST Parser string :=
  fun parser =>
    (Ok name,
     match parser !! name with
     | Some _ => parser
     | None => <[name := []]> parser
     end).

(** [group.addoption(...)] on the group called [group]: the host raises
    [ValueError] when the group already has an option of that name, and
    adds the option behind the others otherwise. *)
Definition addoption (group : string) (o : OptSpec) : ST Parser unit :=
  fun parser =>
    let options := default [] (parser !! group) in
    if py_in (opt_name o) (map opt_name options)
    then (Raise (ValueError [opt_name o]), parser)
    else (Ok tt, alter (fun os => os ++ [o]) group parser).

(** The line feed of the two-line error messages. *)
Definition nl : string := String (Ascii.ascii_of_nat 10) "".

(** ** The hooks *)

Definition pytest_configure (config : Config) : M Config :=
  let config :=
    addinivalue_line "markers" "mcp: mark test as an MCP server test" config in
  let config :=
    addinivalue_line "markers"
      "mcp_integration: mark test as an MCP integration test" config in
  let config :=
    addinivalue_line "markers" "mcp_slow: mark test as a slow MCP test" config in
  (* Add asyncio support if not already configured *)
  unset <- (if hasattr (cfg_option config) "asyncio_mode"
            then mode <- getattr (cfg_option config) "asyncio_mode" ;;
                 ret (negb (truthy mode))
            else ret false) ;;
  let config :=
    if unset : bool then set_option "asyncio_mode" (PyStr "auto") config
    else config in
  logger_debug "pytest-mcp plugin configured" ;;
  ret config.

(** The body of the loop of [pytest_collection_modifyitems]. *)
Definition mark_item (item : loc) : M unit :=
  has <- item_hasattr_fixturenames item ;;
  when has (
    fixture_names <- item_getattr_fixturenames item [] ;;
    when (py_in "mcp_client" fixture_names
          || py_in "mcp_test_server" fixture_names)
         (add_marker item "mcp") ;;
    when (py_in "mcp_test_server" fixture_names)
         (add_marker item "mcp_integration")).

Definition pytest_collection_modifyitems (config : Config) (items : list loc)
  : M unit :=
  for_each items mark_item.

Definition pytest_addoption : ST Parser unit :=
  group <- getgroup "mcp" ;;
  addoption group
    (mkOpt "--mcp-log-level" store None (PyStr "WARNING")
       "Set log level for MCP client (DEBUG, INFO, WARNING, ERROR)") ;;
  addoption group
    (mkOpt "--mcp-timeout" store (Some ty_float) (PyFloat 30.0%float)
       "Default timeout for MCP operations in seconds") ;;
  addoption group
    (mkOpt "--mcp-update-snapshots" store_true None (PyBool false)
       "Update snapshot files instead of comparing").

Section Formatting.

(** What an f-string replacement field [{v}] renders a value as (its
    [str]); the rendering belongs to the interpreter, not to the
    plugin. *)
Variable py_str : pyval -> string.

Definition pytest_report_header (config : Config) : M (list string) :=
  let headers := [] in
  headers <- (if hasattr (cfg_option config) "mcp_log_level"
              then v <- getattr (cfg_option config) "mcp_log_level" ;;
                   ret (headers ++ ["mcp: log-level=" +:+ py_str v])
              else ret headers) ;;
  headers <- (if hasattr (cfg_option config) "mcp_timeout"
              then v <- getattr (cfg_option config) "mcp_timeout" ;;
                   ret (headers ++ ["mcp: timeout=" +:+ py_str v +:+ "s"])
              else ret headers) ;;
  ret headers.

(** The [report] argument is not used by the hook. *)
Definition pytest_exception_interact
    (node : loc) (call : CallInfo) (report : unit) : M unit :=
  match excinfo call with
  | None => ret tt
  | Some info =>
      let exc_type := ei_type info in
      let exc_value := ei_value info in
      (* Enhance error messages for common MCP issues *)
      if String.eqb (class_name exc_type) "ConnectionError" then
        node_id <- item_nodeid node ;;
        logger_error
          ("MCP connection failed in " +:+ node_id +:+ ": " +:+ py_str exc_value
           +:+ nl +:+
           "Check that your mcp_server fixture returns valid server parameters.")
      else if String.eqb (class_name exc_type) "TimeoutError" then
        node_id <- item_nodeid node ;;
        logger_error
          ("MCP operation timed out in " +:+ node_id +:+ ": " +:+ py_str exc_value
           +:+ nl +:+
           "Consider increasing timeout with --mcp-timeout option.")
      else ret tt
  end.

End Formatting.

(** * Vocabulary of the properties *)

(** ** Reading a run *)

(** What a hook returned or raised, and the world it left behind. *)
Definition outcome {S A} (m : ST S A) (s : S) : Res A := fst (m s).
Definition world_after {A} (m : M A) (w : World) : World := snd (m w).

(** The parser [pytest_addoption] leaves behind. *)
Definition parser_after {A} (m : ST Parser A) (parser : Parser) : Parser :=
  snd (m parser).

(** The names of the plugin's options, and that a parser's group [mcp] has
    none of them yet. *)
Definition mcp_option_names : list string :=
  ["--mcp-log-level"; "--mcp-timeout"; "--mcp-update-snapshots"].

Definition mcp_names_free (parser : Parser) : Prop :=
  forall o, In o (default [] (parser !! "mcp")) -> ~ In (opt_name o) mcp_option_names.

(** Whether the group [mcp] of a parser already has an option of a name. *)
Definition taken (name : string) (parser : Parser) : bool :=
  py_in name (map opt_name (default [] (parser !! "mcp"))).

(** The name a marker definition line declares: the text before its first
    colon. *)
Fixpoint marker_name (line : string) : string :=
  match line with
  | EmptyString => EmptyString
  | String c rest =>
      if Ascii.eqb c (Ascii.ascii_of_nat 58) then EmptyString
      else String c (marker_name rest)
  end.

(** The lines [pytest_configure] added to the ini value [name]: what
    [after] holds behind the lines of [before]. *)
Definition lines_added (name : string) (before after : Config) : list string :=
  map snd (filter (fun entry => bool_decide (entry.1 = name))
                  (drop (length (inilines before)) (inilines after))).

(** The option namespace [pytest_configure] leaves behind. *)
Definition asyncio_defaulted (ns : namespace) : namespace :=
  match ns !! "asyncio_mode" with
  | Some mode => if truthy mode then ns else <["asyncio_mode" := PyStr "auto"]> ns
  | None => ns
  end.

(** The three options of the plugin. *)
Definition mcp_log_level_option : OptSpec :=
  mkOpt "--mcp-log-level" store None (PyStr "WARNING")
    "Set log level for MCP client (DEBUG, INFO, WARNING, ERROR)".

Definition mcp_timeout_option : OptSpec :=
  mkOpt "--mcp-timeout" store (Some ty_float) (PyFloat 30.0%float)
    "Default timeout for MCP operations in seconds".

Definition mcp_update_snapshots_option : OptSpec :=
  mkOpt "--mcp-update-snapshots" store_true None (PyBool false)
    "Update snapshot files instead of comparing".

Section Expected.

Variable py_str : pyval -> string.

(** The header lines, by the attributes that are present. *)
Definition log_level_header (ns : namespace) : list string :=
  match ns !! "mcp_log_level" with
  | Some v => ["mcp: log-level=" +:+ py_str v]
  | None => []
  end.

Definition timeout_header (ns : namespace) : list string :=
  match ns !! "mcp_timeout" with
  | Some v => ["mcp: timeout=" +:+ py_str v +:+ "s"]
  | None => []
  end.

(** The message logged for an exception class name, if any. *)
Definition enriched_message (node_id : string) (info : ExceptionInfo) : option string :=
  if String.eqb (class_name (ei_type info)) "ConnectionError" then
    Some ("MCP connection failed in " +:+ node_id +:+ ": " +:+ py_str (ei_value info)
          +:+ nl +:+
          "Check that your mcp_server fixture returns valid server parameters.")
  else if String.eqb (class_name (ei_type info)) "TimeoutError" then
    Some ("MCP operation timed out in " +:+ node_id +:+ ": " +:+ py_str (ei_value info)
          +:+ nl +:+
          "Consider increasing timeout with --mcp-timeout option.")
  else None.

End Expected.

(** The markers one pass of the loop body adds to an item, by the item's
    [fixturenames] attribute. *)
Definition auto_marks (fixture_names : option (list string)) : list string :=
  match fixture_names with
  | None => []
  | Some names =>
      (if py_in "mcp_client" names || py_in "mcp_test_server" names
       then ["mcp"] else []) ++
      (if py_in "mcp_test_server" names then ["mcp_integration"] else [])
  end.

Definition tagged (it : Item) : Item :=
  mkItem (nodeid it) (fixturenames it)
         (own_markers it ++ auto_marks (fixturenames it)).

(** How often the list of collected items refers to an item. *)
Definition times_listed (item : loc) (items : list loc) : nat :=
  count_occ Nat.eq_dec items item.

(** The markers an item gained between two states of it. *)
Definition markers_added (before after : Item) : list string :=
  drop (length (own_markers before)) (own_markers after).

(** ** Sample objects *)

(** A small collection to run the hooks on. *)
Definition sample_heap : loc -> Item :=
  fun l =>
    match l with
    | 0 => mkItem "test_tools.py::test_list" (Some ["mcp_client"]) []
    | 1 => mkItem "test_e2e.py::test_roundtrip"
             (Some ["tmp_path"; "mcp_test_server"]) ["slow"]
    | 2 => mkItem "test_unit.py::test_parse" (Some ["tmp_path"]) []
    | _ => mkItem "README.md::doctest" None []
    end.

Definition sample_world : World := mkWorld sample_heap [] false.

Definition sample_config : Config :=
  mkConfig {["asyncio_mode" := PyStr ""; "verbose" := PyInt 0]} [].

Definition other_config : Config :=
  mkConfig {["mcp_timeout" := PyFloat 5.0%float]} [("markers", "slow: slow test")].

Definition other_world : World :=
  mkWorld (fun l => mkItem "renamed" (fixturenames (sample_heap l)) ["xfail"])
          [(ERROR, "earlier")] true.

(** A configuration without any of the optional attributes, and a store
    whose items all lack [fixturenames]. *)
Definition bare_config : Config := mkConfig ∅ [].

Definition bare_world : World :=
  mkWorld (fun _ => mkItem "conftest.py::item" None []) [] false.

(** A parser on which other plugins have registered options, one of them
    in the group [mcp]. *)
Definition sample_parser : Parser :=
  <["general" := [mkOpt "--verbose" store_true None (PyBool false) "more output"] ]>
  (<["mcp" := [mkOpt "--mcp-trace" store_true None (PyBool false) "trace messages"] ]>
   ∅).

(** Rendering used where a concrete one is needed: strings as they are,
    the other values by a fixed tag. *)
Definition tag_str (v : pyval) : string :=
  match v with
  | PyStr s => s
  | PyNone => "None"
  | PyBool true => "True"
  | PyBool false => "False"
  | PyInt _ => "<int>"
  | PyFloat _ => "<float>"
  end.

(** ** Further vocabulary *)

(** The two markers the collection hook can give. *)
Definition is_auto_marker (m : string) : Prop :=
  m = "mcp" \/ m = "mcp_integration".

(** A header line that carries the plugin's tag. *)
Definition has_mcp_tag (line : string) : bool :=
  String.prefix "mcp: " line.

(** How many of the two reported attributes a namespace has. *)
Definition reported_attributes (ns : namespace) : nat :=
  (if hasattr ns "mcp_log_level" then 1 else 0) +
  (if hasattr ns "mcp_timeout" then 1 else 0).

(** * Properties of the hooks *)

(** ** The configuration hook *)

Lemma pytest_configure_run (config : Config) (w : World) :
  pytest_configure config w =
    (Ok (mkConfig (asyncio_defaulted (cfg_option config))
           (inilines config ++
              [("markers", "mcp: mark test as an MCP server test");
               ("markers", "mcp_integration: mark test as an MCP integration test");
               ("markers", "mcp_slow: mark test as a slow MCP test")])),
     if debug_enabled w
     then mkWorld (heap w) (log w ++ [(DEBUG, "pytest-mcp plugin configured")])
                  (debug_enabled w)
     else w).
Proof.
  unfold pytest_configure, asyncio_defaulted, hasattr, getattr, bind, ret,
    logger_debug, logger_emit, set_option, setattr, addinivalue_line.
  cbn [cfg_option inilines].
  rewrite <- !app_assoc. cbn [app].
  destruct (cfg_option config !! "asyncio_mode") as [mode|] eqn:Hmode.
  - rewrite bool_decide_eq_true_2 by eauto.
    destruct (truthy mode), (debug_enabled w); reflexivity.
  - rewrite bool_decide_eq_false_2 by (intros [? ?]; discriminate).
    destruct (debug_enabled w); reflexivity.
Qed.

(** C4: whatever the configuration object, [pytest_configure] returns and
    has added exactly three lines to the ini value [markers]; they declare
    the markers [mcp], [mcp_integration] and [mcp_slow], in that order, and
    no line was added to any other ini value. *)
Theorem pytest_configure_registers_three_markers (config : Config) (w : World) :
  exists config',
    outcome (pytest_configure config) w = Ok config' /\
    inilines config' =
      inilines config ++ map (pair "markers") (lines_added "markers" config config') /\
    length (lines_added "markers" config config') = 3 /\
    map marker_name (lines_added "markers" config config') =
      ["mcp"; "mcp_integration"; "mcp_slow"].
Proof.
  eexists. unfold outcome. rewrite pytest_configure_run. cbn [fst].
  split; [reflexivity|].
  unfold lines_added. cbn [inilines].
  rewrite drop_app_length.
  repeat split; reflexivity.
Qed.

(** An attribute read behind its [hasattr] test never raises: the guarded
    read is a case distinction on the attribute being there. *)
Lemma guarded_getattr {A} (ns : namespace) (name : string)
    (k : pyval -> M A) (otherwise : M A) :
  (if hasattr ns name then v <- getattr ns name ;; k v else otherwise) =
  match ns !! name with Some v => k v | None => otherwise end.
Proof.
  unfold hasattr, getattr.
  destruct (ns !! name) as [v|].
  - rewrite bool_decide_eq_true_2 by eauto. reflexivity.
  - rewrite bool_decide_eq_false_2 by (intros [? ?]; discriminate). reflexivity.
Qed.

(** The unguarded read does raise on a namespace without the attribute. *)
Example getattr_missing (w : World) :
  outcome (getattr (∅ : namespace) "asyncio_mode") w
  = Raise (AttributeError "asyncio_mode").
Proof. reflexivity. Qed.

Lemma asyncio_defaulted_other (ns : namespace) (name : string) :
  name <> "asyncio_mode" -> asyncio_defaulted ns !! name = ns !! name.
Proof.
  intros Hne. unfold asyncio_defaulted.
  destruct (ns !! "asyncio_mode") as [mode|]; [|reflexivity].
  destruct (truthy mode); [reflexivity|].
  apply lookup_insert_ne. congruence.
Qed.

(** C8: [pytest_configure] returns, and the option namespace it leaves is
    the old one with [asyncio_mode] set to ['auto'] when that attribute was
    there with a falsy value; the namespace is the old one when the
    attribute was there with a truthy value and when it was missing; in
    every case all attributes other than [asyncio_mode] are as before. *)
Theorem pytest_configure_asyncio_mode (config : Config) (w : World) :
  exists config',
    outcome (pytest_configure config) w = Ok config' /\
    (forall mode, cfg_option config !! "asyncio_mode" = Some mode ->
       truthy mode = false ->
       cfg_option config' = <["asyncio_mode" := PyStr "auto"]> (cfg_option config)) /\
    (forall mode, cfg_option config !! "asyncio_mode" = Some mode ->
       truthy mode = true ->
       cfg_option config' = cfg_option config) /\
    (cfg_option config !! "asyncio_mode" = None ->
       cfg_option config' = cfg_option config) /\
    (forall name, name <> "asyncio_mode" ->
       cfg_option config' !! name = cfg_option config !! name).
Proof.
  eexists. unfold outcome. rewrite pytest_configure_run. cbn [fst cfg_option].
  split; [reflexivity|].
  unfold asyncio_defaulted.
  repeat split.
  - intros mode -> ->. reflexivity.
  - intros mode -> ->. reflexivity.
  - intros ->. reflexivity.
  - intros name Hne. apply (asyncio_defaulted_other _ _ Hne).
Qed.

(** ** The option hook *)

Lemma py_in_In (x : string) (xs : list string) : py_in x xs = true <-> In x xs.
Proof.
  unfold py_in. rewrite existsb_exists. split.
  - intros (y & Hy & Heq). apply String.eqb_eq in Heq. congruence.
  - intros Hx. exists x. split; [assumption | apply String.eqb_refl].
Qed.

Lemma py_in_false (x : string) (xs : list string) : py_in x xs = false <-> ~ In x xs.
Proof.
  rewrite <- py_in_In. destruct (py_in x xs); split; congruence.
Qed.

Lemma py_in_app (x : string) (xs ys : list string) :
  py_in x (xs ++ ys) = py_in x xs || py_in x ys.
Proof. apply existsb_app. Qed.

Lemma addoption_run (group : string) (o : OptSpec) (parser : Parser)
    (options : list OptSpec) :
  parser !! group = Some options ->
  addoption group o parser =
    if py_in (opt_name o) (map opt_name options)
    then (Raise (ValueError [opt_name o]), parser)
    else (Ok tt, <[group := options ++ [o]]> parser).
Proof.
  intros Hgroup. unfold addoption. rewrite Hgroup. cbn [default from_option id].
  destruct (py_in (opt_name o) (map opt_name options)); [reflexivity|].
  f_equal. apply map_eq. intros g.
  destruct (decide (group = g)) as [<-|Hne].
  - rewrite lookup_alter_eq, lookup_insert_eq, Hgroup. reflexivity.
  - rewrite lookup_alter_ne, lookup_insert_ne by assumption. reflexivity.
Qed.

Lemma getgroup_run (name : string) (parser : Parser) :
  outcome (getgroup name) parser = Ok name /\
  parser_after (getgroup name) parser !! name = Some (default [] (parser !! name)) /\
  forall options,
    <[name := options]> (parser_after (getgroup name) parser) =
    <[name := options]> parser.
Proof.
  unfold outcome, parser_after, getgroup. cbn [fst snd].
  split; [reflexivity|].
  destruct (parser !! name) as [old|] eqn:Hold.
  - split; [exact Hold | reflexivity].
  - split; [apply lookup_insert_eq | intros options; apply insert_insert_eq].
Qed.

(** The whole course of [pytest_addoption]: the three options are added in
    turn, and the first whose name the group already has stops the hook
    with a [ValueError], the options before it staying added. *)
Lemma pytest_addoption_run (parser : Parser) :
  let old := default [] (parser !! "mcp") in
  pytest_addoption parser =
    if taken "--mcp-log-level" parser then
      (Raise (ValueError ["--mcp-log-level"]), parser_after (getgroup "mcp") parser)
    else if taken "--mcp-timeout" parser then
      (Raise (ValueError ["--mcp-timeout"]),
       <["mcp" := old ++ [mcp_log_level_option]]> parser)
    else if taken "--mcp-update-snapshots" parser then
      (Raise (ValueError ["--mcp-update-snapshots"]),
       <["mcp" := old ++ [mcp_log_level_option; mcp_timeout_option]]> parser)
    else
      (Ok tt,
       <["mcp" := old ++ [mcp_log_level_option; mcp_timeout_option;
                          mcp_update_snapshots_option]]> parser).
Proof.
  intros old. unfold taken. fold old.
  destruct (getgroup_run "mcp" parser) as (_ & Hgroup & Hinsert). fold old in Hgroup.
  unfold pytest_addoption.
  fold mcp_log_level_option mcp_timeout_option mcp_update_snapshots_option.
  unfold bind at 1.
  change (getgroup "mcp" parser)
    with (Ok "mcp", parser_after (getgroup "mcp") parser).
  cbv iota beta.
  set (p0 := parser_after (getgroup "mcp") parser) in *.
  unfold bind at 1. rewrite (addoption_run _ _ _ _ Hgroup).
  cbn [opt_name mcp_log_level_option].
  destruct (py_in "--mcp-log-level" (map opt_name old)); [reflexivity|].
  unfold bind at 1. rewrite (addoption_run _ _ _ _ (lookup_insert_eq _ _ _)).
  rewrite map_app, py_in_app. cbn [opt_name mcp_timeout_option].
  replace (py_in "--mcp-timeout" (map opt_name [mcp_log_level_option]))
    with false by reflexivity.
  rewrite orb_false_r, insert_insert_eq, !Hinsert, <- app_assoc. cbn [app].
  destruct (py_in "--mcp-timeout" (map opt_name old)); [reflexivity|].
  rewrite <- Hinsert.
  rewrite (addoption_run _ _ _ _ (lookup_insert_eq _ _ _)).
  rewrite map_app, py_in_app. cbn [opt_name mcp_update_snapshots_option].
  replace (py_in "--mcp-update-snapshots"
             (map opt_name [mcp_log_level_option; mcp_timeout_option]))
    with false by reflexivity.
  rewrite orb_false_r, insert_insert_eq, !Hinsert, <- app_assoc. cbn [app].
  destruct (py_in "--mcp-update-snapshots" (map opt_name old)); reflexivity.
Qed.

Lemma mcp_names_free_taken (parser : Parser) :
  mcp_names_free parser <->
  taken "--mcp-log-level" parser = false /\
  taken "--mcp-timeout" parser = false /\
  taken "--mcp-update-snapshots" parser = false.
Proof.
  unfold mcp_names_free, taken, mcp_option_names.
  rewrite !py_in_false. split.
  - intros Hfree. repeat split; intros Hin;
      apply in_map_iff in Hin as (o & Hname & Ho);
      apply (Hfree o Ho); rewrite Hname; simpl; auto.
  - intros (H1 & H2 & H3) o Ho Hin.
    assert (Hname : In (opt_name o) (map opt_name (default [] (parser !! "mcp"))))
      by (apply in_map; exact Ho).
    destruct Hin as [E|[E|[E|[]]]]; rewrite <- E in Hname; auto.
Qed.

(** C3: on a parser whose group [mcp] has none of the three names yet,
    [pytest_addoption] returns, and the parser it leaves has, in its group
    [mcp], the options that were there followed by exactly three new ones:
    [--mcp-log-level] (stored, default ['WARNING']), [--mcp-timeout]
    (stored, of type float, default [30.0]) and the flag
    [--mcp-update-snapshots] (store-true, default [False]); every other
    group is as before. *)
Theorem pytest_addoption_registers_three_options (parser : Parser) :
  mcp_names_free parser ->
  outcome pytest_addoption parser = Ok tt /\
  parser_after pytest_addoption parser !! "mcp" =
    Some (default [] (parser !! "mcp") ++
          [mcp_log_level_option; mcp_timeout_option; mcp_update_snapshots_option]) /\
  (forall group, group <> "mcp" ->
     parser_after pytest_addoption parser !! group = parser !! group) /\
  map opt_name [mcp_log_level_option; mcp_timeout_option; mcp_update_snapshots_option]
    = ["--mcp-log-level"; "--mcp-timeout"; "--mcp-update-snapshots"] /\
  map opt_default [mcp_log_level_option; mcp_timeout_option; mcp_update_snapshots_option]
    = [PyStr "WARNING"; PyFloat 30.0%float; PyBool false] /\
  map opt_type [mcp_log_level_option; mcp_timeout_option; mcp_update_snapshots_option]
    = [None; Some ty_float; None] /\
  map opt_action [mcp_log_level_option; mcp_timeout_option; mcp_update_snapshots_option]
    = [store; store; store_true].
Proof.
  intros Hfree. apply mcp_names_free_taken in Hfree as (H1 & H2 & H3).
  unfold outcome, parser_after.
  rewrite pytest_addoption_run, H1, H2, H3. cbn [fst snd].
  split; [reflexivity|]. split; [apply lookup_insert_eq|].
  split; [|repeat split].
  intros group Hne. apply lookup_insert_ne. congruence.
Qed.

Lemma pytest_addoption_registers_three_options_witness :
  outcome pytest_addoption sample_parser = Ok tt /\
  map opt_name (default [] (parser_after pytest_addoption sample_parser !! "mcp"))
  = ["--mcp-trace"; "--mcp-log-level"; "--mcp-timeout"; "--mcp-update-snapshots"].
Proof.
  destruct (pytest_addoption_registers_three_options sample_parser)
    as (Hok & Hgroup & _).
  - intros o Ho. vm_compute in Ho. destruct Ho as [<-|[]].
    intros [H|[H|[H|[]]]]; discriminate H.
  - split; [exact Hok|]. rewrite Hgroup. vm_compute. reflexivity.
Defined.

(** ** The report-header and exception hooks *)

Section Rendering.

Variable py_str : pyval -> string.

Lemma pytest_report_header_run (config : Config) (w : World) :
  pytest_report_header py_str config w =
    (Ok (log_level_header py_str (cfg_option config) ++ timeout_header py_str (cfg_option config)), w).
Proof.
  unfold pytest_report_header, log_level_header, timeout_header.
  rewrite (guarded_getattr (cfg_option config) "mcp_log_level").
  unfold bind at 1.
  destruct (cfg_option config !! "mcp_log_level") as [lvl|];
    cbn [ret app];
    rewrite guarded_getattr;
    destruct (cfg_option config !! "mcp_timeout") as [t|]; reflexivity.
Qed.

(** C6: [pytest_report_header] returns, leaving the world as it was, the
    list that holds the line [mcp: log-level=<value>] exactly when the
    option namespace has [mcp_log_level], then the line
    [mcp: timeout=<value>s] exactly when it has [mcp_timeout], and nothing
    else; the list is empty when both attributes are missing. *)
Theorem pytest_report_header_lines (config : Config) (w : World) :
  let ns := cfg_option config in
  exists headers,
    outcome (pytest_report_header py_str config) w = Ok headers /\
    world_after (pytest_report_header py_str config) w = w /\
    headers =
      match ns !! "mcp_log_level" with
      | Some v => ["mcp: log-level=" +:+ py_str v]
      | None => []
      end ++
      match ns !! "mcp_timeout" with
      | Some v => ["mcp: timeout=" +:+ py_str v +:+ "s"]
      | None => []
      end /\
    (ns !! "mcp_log_level" = None -> ns !! "mcp_timeout" = None -> headers = []).
Proof.
  intros ns. eexists. unfold outcome, world_after.
  rewrite pytest_report_header_run. cbn [fst snd].
  repeat split.
  unfold log_level_header, timeout_header. fold ns.
  intros -> ->. reflexivity.
Qed.

Lemma enriched_message_Some (node_id : string) (info : ExceptionInfo) :
  is_Some (enriched_message py_str node_id info) <->
  class_name (ei_type info) = "ConnectionError" \/ class_name (ei_type info) = "TimeoutError".
Proof.
  unfold enriched_message.
  destruct (String.eqb_spec (class_name (ei_type info)) "ConnectionError") as [Hc|Hc];
    [split; eauto|].
  destruct (String.eqb_spec (class_name (ei_type info)) "TimeoutError") as [Ht|Ht];
    [split; eauto|].
  split; [intros [? ?]; discriminate | intros [?|?]; contradiction].
Qed.

Lemma pytest_exception_interact_run
    (node : loc) (call : CallInfo) (report : unit) (w : World) :
  pytest_exception_interact py_str node call report w =
    (Ok tt,
     match excinfo call with
     | None => w
     | Some info =>
         match enriched_message py_str (nodeid (heap w node)) info with
         | Some msg => mkWorld (heap w) (log w ++ [(ERROR, msg)]) (debug_enabled w)
         | None => w
         end
     end).
Proof.
  unfold pytest_exception_interact, enriched_message.
  destruct (excinfo call) as [info|]; [|reflexivity].
  destruct (String.eqb (class_name (ei_type info)) "ConnectionError"); [reflexivity|].
  destruct (String.eqb (class_name (ei_type info)) "TimeoutError"); reflexivity.
Qed.

(** C5: [pytest_exception_interact] returns; with [call.excinfo] being
    [None] it leaves the world untouched; otherwise it appends one record
    of level [ERROR] to the log, carrying the enriched message, exactly
    when the exception class is named [ConnectionError] or [TimeoutError],
    and leaves the world untouched for every other class name. *)
Theorem pytest_exception_interact_enriches
    (node : loc) (call : CallInfo) (report : unit) (w : World) :
  let hook := pytest_exception_interact py_str node call report in
  outcome hook w = Ok tt /\
  (excinfo call = None -> world_after hook w = w) /\
  (forall info, excinfo call = Some info ->
     ((class_name (ei_type info) = "ConnectionError" \/ class_name (ei_type info) = "TimeoutError")
      <-> exists msg, log (world_after hook w) = log w ++ [(ERROR, msg)]) /\
     (forall msg, enriched_message py_str (nodeid (heap w node)) info = Some msg ->
        world_after hook w =
          mkWorld (heap w) (log w ++ [(ERROR, msg)]) (debug_enabled w)) /\
     (~ (class_name (ei_type info) = "ConnectionError" \/ class_name (ei_type info) = "TimeoutError")
      -> world_after hook w = w)).
Proof.
  intros hook. unfold hook, outcome, world_after.
  rewrite pytest_exception_interact_run. cbn [fst snd].
  split; [reflexivity|]. split; [intros ->; reflexivity|].
  intros info ->.
  pose proof (enriched_message_Some (nodeid (heap w node)) info) as Hmsg.
  destruct (enriched_message py_str (nodeid (heap w node)) info) as [msg|].
  - repeat split.
    + intros _. exists msg. reflexivity.
    + intros _. apply Hmsg. eauto.
    + intros msg' [= <-]. reflexivity.
    + intros Hno. exfalso. apply Hno, Hmsg. eauto.
  - repeat split.
    + intros Hyes. apply Hmsg in Hyes as [? ?]. discriminate.
    + intros [msg Hlog]. exfalso.
      apply (f_equal length) in Hlog. rewrite length_app in Hlog.
      cbn in Hlog. lia.
    + intros msg' ?. discriminate.
Qed.

End Rendering.

(** ** The collection hook *)

Lemma mark_item_run (item : loc) (w : World) :
  outcome (mark_item item) w = Ok tt /\
  log (world_after (mark_item item) w) = log w /\
  forall l, heap (world_after (mark_item item) w) l =
            if decide (l = item) then tagged (heap w l) else heap w l.
Proof.
  unfold outcome, world_after, mark_item, bind, when, ret,
    item_hasattr_fixturenames, item_getattr_fixturenames, add_marker.
  cbn [fst snd heap log].
  destruct (fixturenames (heap w item)) as [names|] eqn:Hnames.
  - rewrite bool_decide_eq_true_2 by eauto.
    cbv beta. rewrite ?Hnames. cbn [default from_option id].
    destruct (py_in "mcp_client" names) eqn:Hcli;
      destruct (py_in "mcp_test_server" names) eqn:Hsrv;
      cbn [orb fst snd heap log]; (split; [reflexivity|]); (split; [reflexivity|]);
      intros l; destruct (decide (l = item)) as [->|Hne]; try reflexivity;
      unfold tagged, auto_marks, append_marker; cbn [nodeid fixturenames own_markers];
      rewrite Hnames, Hcli, Hsrv; cbn [orb app];
      rewrite <- ?app_assoc, ?app_nil_r; try reflexivity;
      destruct (heap w item); cbn in *; congruence.
  - rewrite bool_decide_eq_false_2 by (intros [? ?]; discriminate).
    cbn [fst snd]. repeat split.
    intros l. destruct (decide (l = item)) as [->|Hne]; [|reflexivity].
    unfold tagged, auto_marks. rewrite Hnames, app_nil_r.
    destruct (heap w item); cbn in *; congruence.
Qed.

Lemma for_each_bind_run {A} (x : A) (rest : list A) (body : A -> M unit) (w : World) :
  outcome (body x) w = Ok tt ->
  for_each (x :: rest) body w = for_each rest body (world_after (body x) w).
Proof.
  unfold outcome, world_after. cbn [for_each]. unfold bind.
  destruct (body x w) as [[[]|e] w']; cbn [fst snd]; [reflexivity | discriminate].
Qed.

Lemma collection_run (items : list loc) (w : World) :
  outcome (for_each items mark_item) w = Ok tt /\
  log (world_after (for_each items mark_item) w) = log w /\
  forall l, heap (world_after (for_each items mark_item) w) l =
            Nat.iter (times_listed l items) tagged (heap w l).
Proof.
  revert w. induction items as [|item rest IH]; intros w.
  - repeat split.
  - destruct (mark_item_run item w) as (Hok & Hlog & Hheap).
    unfold outcome, world_after in *.
    rewrite (for_each_bind_run item rest mark_item w Hok).
    destruct (IH (world_after (mark_item item) w)) as (IHok & IHlog & IHheap).
    unfold outcome, world_after in *.
    split; [assumption|]. split; [congruence|].
    intros l. rewrite IHheap, Hheap. unfold times_listed.
    destruct (decide (l = item)) as [->|Hne].
    + rewrite count_occ_cons_eq by reflexivity. symmetry. apply Nat.iter_succ_r.
    + rewrite count_occ_cons_neq by congruence. reflexivity.
Qed.

Lemma concat_replicate_snoc {A} (n : nat) (xs : list A) :
  concat (replicate n xs) ++ xs = concat (replicate (S n) xs).
Proof.
  induction n as [|n IH]; cbn [replicate concat] in *.
  - rewrite app_nil_r. reflexivity.
  - rewrite <- app_assoc, IH. reflexivity.
Qed.

Lemma iter_tagged (n : nat) (it : Item) :
  Nat.iter n tagged it =
  mkItem (nodeid it) (fixturenames it)
         (own_markers it ++ concat (replicate n (auto_marks (fixturenames it)))).
Proof.
  induction n as [|n IH].
  - cbn. rewrite app_nil_r. destruct it; reflexivity.
  - rewrite Nat.iter_succ, IH. unfold tagged.
    cbn [nodeid fixturenames own_markers].
    rewrite <- app_assoc, concat_replicate_snoc. reflexivity.
Qed.

(** What the hook does to every item of the store: it returns, logs
    nothing, and the item has gained its automatic markers once for each
    time the list refers to it; nothing else about the item changes. *)
Lemma collection_effect (config : Config) (items : list loc) (w : World) :
  let hook := pytest_collection_modifyitems config items in
  outcome hook w = Ok tt /\
  log (world_after hook w) = log w /\
  forall l,
    nodeid (heap (world_after hook w) l) = nodeid (heap w l) /\
    fixturenames (heap (world_after hook w) l) = fixturenames (heap w l) /\
    own_markers (heap (world_after hook w) l) =
      own_markers (heap w l) ++ markers_added (heap w l) (heap (world_after hook w) l) /\
    markers_added (heap w l) (heap (world_after hook w) l) =
      concat (replicate (times_listed l items) (auto_marks (fixturenames (heap w l)))).
Proof.
  intros hook. unfold hook, pytest_collection_modifyitems.
  destruct (collection_run items w) as (Hok & Hlog & Hheap).
  split; [assumption|]. split; [assumption|].
  intros l. unfold markers_added. rewrite Hheap, iter_tagged.
  cbn [nodeid fixturenames own_markers]. rewrite drop_app_length.
  repeat split.
Qed.

Lemma In_concat_replicate {A} (x : A) (n : nat) (xs : list A) :
  In x (concat (replicate n xs)) <-> 0 < n /\ In x xs.
Proof.
  induction n as [|n IH]; cbn [replicate concat].
  - split; [intros [] | intros [? _]; lia].
  - rewrite in_app_iff, IH. split.
    + intros [?|[_ ?]]; split; auto; lia.
    + intros [_ ?]. left. assumption.
Qed.

Lemma In_mcp_auto_marks (fixture_names : option (list string)) :
  In "mcp" (auto_marks fixture_names) <->
  exists names, fixture_names = Some names /\
                (In "mcp_client" names \/ In "mcp_test_server" names).
Proof.
  destruct fixture_names as [names|]; cbn [auto_marks].
  - rewrite in_app_iff.
    transitivity (In "mcp_client" names \/ In "mcp_test_server" names).
    + rewrite <- (py_in_In "mcp_client"), <- (py_in_In "mcp_test_server").
      destruct (py_in "mcp_client" names), (py_in "mcp_test_server" names);
        cbn; intuition congruence.
    + split; [eauto | intros (? & [= <-] & ?); assumption].
  - split; [intros [] | intros (? & ? & _); discriminate].
Qed.

Lemma In_mcp_integration_auto_marks (fixture_names : option (list string)) :
  In "mcp_integration" (auto_marks fixture_names) <->
  exists names, fixture_names = Some names /\ In "mcp_test_server" names.
Proof.
  destruct fixture_names as [names|]; cbn [auto_marks].
  - rewrite in_app_iff.
    transitivity (In "mcp_test_server" names).
    + rewrite <- (py_in_In "mcp_test_server").
      destruct (py_in "mcp_client" names), (py_in "mcp_test_server" names);
        cbn; intuition congruence.
    + split; [eauto | intros (? & [= <-] & ?); assumption].
  - split; [intros [] | intros (? & ? & _); discriminate].
Qed.

Example sample_collection_markers :
  let w' := world_after
              (pytest_collection_modifyitems sample_config [0; 1; 2; 3]) sample_world in
  map (fun l => own_markers (heap w' l)) [0; 1; 2; 3] =
    [["mcp"]; ["slow"; "mcp"; "mcp_integration"]; []; []].
Proof. reflexivity. Qed.

(** An item the list refers to twice is visited twice. *)
Example sample_collection_aliased :
  own_markers
    (heap (world_after (pytest_collection_modifyitems sample_config [1; 1])
             sample_world) 1)
  = ["slow"; "mcp"; "mcp_integration"; "mcp"; "mcp_integration"].
Proof. reflexivity. Qed.

(** C1: for an item of the collected list that has the [fixturenames]
    attribute, [pytest_collection_modifyitems] returns and the markers it
    added to the item include [mcp] if and only if the fixture names
    contain [mcp_client] or contain [mcp_test_server]. *)
Theorem auto_tag_mcp
    (config : Config) (items : list loc) (w : World)
    (item : loc) (names : list string) :
  In item items ->
  fixturenames (heap w item) = Some names ->
  let hook := pytest_collection_modifyitems config items in
  outcome hook w = Ok tt /\
  own_markers (heap (world_after hook w) item) =
    own_markers (heap w item) ++
    markers_added (heap w item) (heap (world_after hook w) item) /\
  (In "mcp" (markers_added (heap w item) (heap (world_after hook w) item))
   <-> In "mcp_client" names \/ In "mcp_test_server" names).
Proof.
  intros Hin Hnames hook.
  destruct (collection_effect config items w) as (Hok & _ & Hitem).
  destruct (Hitem item) as (_ & _ & Hown & Hadded).
  split; [exact Hok|]. split; [exact Hown|].
  fold hook in Hadded. rewrite Hadded, In_concat_replicate, In_mcp_auto_marks.
  apply (count_occ_In Nat.eq_dec) in Hin. fold (times_listed item items) in Hin.
  rewrite Hnames. split.
  - intros (_ & names' & [= <-] & H). exact H.
  - intros H. split; [lia | eauto].
Qed.

Lemma auto_tag_mcp_witness :
  let hook := pytest_collection_modifyitems sample_config [0; 1; 2; 3] in
  outcome hook sample_world = Ok tt /\
  In "mcp" (markers_added (heap sample_world 0)
              (heap (world_after hook sample_world) 0)).
Proof.
  intros hook.
  destruct (auto_tag_mcp sample_config [0; 1; 2; 3] sample_world 0 ["mcp_client"])
    as (Hok & _ & Hiff).
  - simpl. auto.
  - reflexivity.
  - split; [exact Hok|]. apply Hiff. left. simpl. auto.
Defined.

(** C2: for an item of the collected list that has the [fixturenames]
    attribute, the markers [pytest_collection_modifyitems] added to the
    item include [mcp_integration] if and only if the fixture names contain
    [mcp_test_server]. *)
Theorem auto_tag_mcp_integration
    (config : Config) (items : list loc) (w : World)
    (item : loc) (names : list string) :
  In item items ->
  fixturenames (heap w item) = Some names ->
  let hook := pytest_collection_modifyitems config items in
  outcome hook w = Ok tt /\
  own_markers (heap (world_after hook w) item) =
    own_markers (heap w item) ++
    markers_added (heap w item) (heap (world_after hook w) item) /\
  (In "mcp_integration" (markers_added (heap w item) (heap (world_after hook w) item))
   <-> In "mcp_test_server" names).
Proof.
  intros Hin Hnames hook.
  destruct (collection_effect config items w) as (Hok & _ & Hitem).
  destruct (Hitem item) as (_ & _ & Hown & Hadded).
  split; [exact Hok|]. split; [exact Hown|].
  fold hook in Hadded.
  rewrite Hadded, In_concat_replicate, In_mcp_integration_auto_marks.
  apply (count_occ_In Nat.eq_dec) in Hin. fold (times_listed item items) in Hin.
  rewrite Hnames. split.
  - intros (_ & names' & [= <-] & H). exact H.
  - intros H. split; [lia | eauto].
Qed.

Lemma auto_tag_mcp_integration_witness :
  let hook := pytest_collection_modifyitems sample_config [0; 1; 2; 3] in
  In "mcp_integration" (markers_added (heap sample_world 1)
                          (heap (world_after hook sample_world) 1)) /\
  ~ In "mcp_integration" (markers_added (heap sample_world 0)
                            (heap (world_after hook sample_world) 0)).
Proof.
  intros hook. split.
  - destruct (auto_tag_mcp_integration sample_config [0; 1; 2; 3] sample_world 1
                ["tmp_path"; "mcp_test_server"]) as (_ & _ & Hiff).
    + simpl. auto.
    + reflexivity.
    + apply Hiff. simpl. auto.
  - destruct (auto_tag_mcp_integration sample_config [0; 1; 2; 3] sample_world 0
                ["mcp_client"]) as (_ & _ & Hiff).
    + simpl. auto.
    + reflexivity.
    + intros H. apply Hiff in H. simpl in H. destruct H as [H|[]]. discriminate H.
Defined.

(** C9: after [pytest_collection_modifyitems] has run, every item of the
    store to which the hook added [mcp_integration] was also given [mcp]
    by it. *)
Theorem auto_tag_integration_implies_mcp
    (config : Config) (items : list loc) (w : World) (item : loc) :
  let hook := pytest_collection_modifyitems config items in
  outcome hook w = Ok tt /\
  own_markers (heap (world_after hook w) item) =
    own_markers (heap w item) ++
    markers_added (heap w item) (heap (world_after hook w) item) /\
  (In "mcp_integration" (markers_added (heap w item) (heap (world_after hook w) item))
   -> In "mcp" (markers_added (heap w item) (heap (world_after hook w) item))).
Proof.
  intros hook.
  destruct (collection_effect config items w) as (Hok & _ & Hitem).
  destruct (Hitem item) as (_ & _ & Hown & Hadded).
  split; [exact Hok|]. split; [exact Hown|].
  fold hook in Hadded.
  rewrite Hadded, !In_concat_replicate,
    In_mcp_integration_auto_marks, In_mcp_auto_marks.
  intros (Hn & names & Hnames & Hsrv). eauto 6.
Qed.

Lemma auto_tag_integration_implies_mcp_witness :
  let hook := pytest_collection_modifyitems sample_config [1; 1] in
  In "mcp" (markers_added (heap sample_world 1)
              (heap (world_after hook sample_world) 1)).
Proof.
  intros hook.
  destruct (auto_tag_integration_implies_mcp sample_config [1; 1] sample_world 1)
    as (_ & _ & Himp).
  apply Himp. simpl. auto.
Defined.

(** C10: the markers [pytest_collection_modifyitems] adds to an item are
    determined by the item's fixture names and the list of collected
    items: two runs on the same list, under any two configuration objects
    and in any two worlds that agree on the item's fixture names, add the
    same markers to it; and in one world the hook does the same under any
    two configuration objects. *)
Theorem auto_tag_noninterference
    (config1 config2 : Config) (items : list loc) (w1 w2 : World) (item : loc) :
  fixturenames (heap w1 item) = fixturenames (heap w2 item) ->
  let hook1 := pytest_collection_modifyitems config1 items in
  let hook2 := pytest_collection_modifyitems config2 items in
  outcome hook1 w1 = outcome hook2 w2 /\
  markers_added (heap w1 item) (heap (world_after hook1 w1) item) =
    markers_added (heap w2 item) (heap (world_after hook2 w2) item) /\
  markers_added (heap w1 item) (heap (world_after hook1 w1) item) =
    concat (replicate (times_listed item items)
                      (auto_marks (fixturenames (heap w1 item)))) /\
  hook1 w1 = hook2 w1.
Proof.
  intros Hnames hook1 hook2.
  destruct (collection_effect config1 items w1) as (Hok1 & _ & Hitem1).
  destruct (collection_effect config2 items w2) as (Hok2 & _ & Hitem2).
  destruct (Hitem1 item) as (_ & _ & _ & Hadded1).
  destruct (Hitem2 item) as (_ & _ & _ & Hadded2).
  fold hook1 in Hok1, Hadded1. fold hook2 in Hok2, Hadded2.
  repeat split.
  - congruence.
  - rewrite Hadded1, Hadded2, Hnames. reflexivity.
  - exact Hadded1.
Qed.

Lemma auto_tag_noninterference_witness :
  markers_added (heap sample_world 1)
    (heap (world_after (pytest_collection_modifyitems sample_config [0; 1; 2])
             sample_world) 1) =
  markers_added (heap other_world 1)
    (heap (world_after (pytest_collection_modifyitems other_config [0; 1; 2])
             other_world) 1).
Proof.
  destruct (auto_tag_noninterference sample_config other_config [0; 1; 2]
              sample_world other_world 1) as (_ & Hsame & _).
  - reflexivity.
  - exact Hsame.
Defined.

(** ** No hook raises on a missing optional attribute *)

Example bare_configure :
  outcome (pytest_configure bare_config) bare_world =
    Ok (mkConfig ∅
          [("markers", "mcp: mark test as an MCP server test");
           ("markers", "mcp_integration: mark test as an MCP integration test");
           ("markers", "mcp_slow: mark test as a slow MCP test")]).
Proof. reflexivity. Qed.

Example sample_configure_sets_auto :
  (fun c => match c with
            | Ok c' => cfg_option c' !! "asyncio_mode"
            | Raise _ => None
            end) (outcome (pytest_configure sample_config) sample_world)
  = Some (PyStr "auto").
Proof. vm_compute. reflexivity. Qed.

Example bare_report_header :
  outcome (pytest_report_header tag_str bare_config) bare_world = Ok [].
Proof. reflexivity. Qed.

Example sample_report_header :
  outcome (pytest_report_header tag_str
             (mkConfig {["mcp_log_level" := PyStr "WARNING";
                         "mcp_timeout" := PyStr "30.0"]} []))
          bare_world
  = Ok ["mcp: log-level=WARNING"; "mcp: timeout=30.0s"].
Proof. vm_compute. reflexivity. Qed.

Example bare_collection :
  pytest_collection_modifyitems bare_config [0; 1; 2] bare_world = (Ok tt, bare_world).
Proof. reflexivity. Qed.

Example timeout_is_logged :
  log (world_after
         (pytest_exception_interact tag_str 0
            (mkCall (Some (mkExc (mkClass "TimeoutError") (PyStr "no reply")))) tt)
         sample_world)
  = [(ERROR,
      "MCP operation timed out in test_tools.py::test_list: no reply" +:+ nl +:+
      "Consider increasing timeout with --mcp-timeout option.")].
Proof. reflexivity. Qed.

Example subclass_name_is_not_logged :
  world_after
    (pytest_exception_interact tag_str 0
       (mkCall (Some (mkExc (mkClass "ConnectionRefusedError") PyNone))) tt)
    sample_world
  = sample_world.
Proof. reflexivity. Qed.

(** C7: no hook ends in an [AttributeError], whichever of the optional
    attributes [fixturenames], [asyncio_mode], [mcp_log_level] and
    [mcp_timeout] are missing from the configuration or the items; the
    configuration, collection, report-header and exception hooks return on
    every configuration, call and store of items. *)
Theorem hooks_never_raise_attribute_error
    (py_str : pyval -> string) (config : Config) (items : list loc)
    (parser : Parser) (node : loc) (call : CallInfo) (report : unit) (w : World) :
  (exists config', outcome (pytest_configure config) w = Ok config') /\
  outcome (pytest_collection_modifyitems config items) w = Ok tt /\
  (exists headers, outcome (pytest_report_header py_str config) w = Ok headers) /\
  outcome (pytest_exception_interact py_str node call report) w = Ok tt /\
  forall attr,
    outcome (pytest_configure config) w <> Raise (AttributeError attr) /\
    outcome (pytest_collection_modifyitems config items) w <> Raise (AttributeError attr) /\
    outcome pytest_addoption parser <> Raise (AttributeError attr) /\
    outcome (pytest_report_header py_str config) w <> Raise (AttributeError attr) /\
    outcome (pytest_exception_interact py_str node call report) w
      <> Raise (AttributeError attr).
Proof.
  assert (Hconf : exists config', outcome (pytest_configure config) w = Ok config').
  { unfold outcome. rewrite pytest_configure_run. eexists. reflexivity. }
  assert (Hcoll : outcome (pytest_collection_modifyitems config items) w = Ok tt).
  { apply collection_effect. }
  assert (Hhead : exists headers,
             outcome (pytest_report_header py_str config) w = Ok headers).
  { unfold outcome. rewrite pytest_report_header_run. eexists. reflexivity. }
  assert (Hexc : outcome (pytest_exception_interact py_str node call report) w = Ok tt).
  { unfold outcome. rewrite pytest_exception_interact_run. reflexivity. }
  split; [exact Hconf|]. split; [exact Hcoll|].
  split; [exact Hhead|]. split; [exact Hexc|].
  intros attr. destruct Hconf as [c Hc], Hhead as [h Hh].
  rewrite Hc, Hcoll, Hh, Hexc. repeat split; try discriminate.
  unfold outcome. rewrite pytest_addoption_run.
  destruct (taken "--mcp-log-level" parser); [discriminate|].
  destruct (taken "--mcp-timeout" parser); [discriminate|].
  destruct (taken "--mcp-update-snapshots" parser); discriminate.
Qed.

(** * Further properties of the hooks *)

(** ** The collection hook: frame, composition, multiplicity *)

Lemma concat_replicate_nil {A} (n : nat) :
  concat (replicate n ([] : list A)) = [].
Proof. induction n as [|n IH]; [reflexivity | exact IH]. Qed.

Lemma auto_marks_only (fixture_names : option (list string)) :
  Forall is_auto_marker (auto_marks fixture_names).
Proof.
  destruct fixture_names as [names|]; cbn [auto_marks]; [|constructor].
  apply Forall_app. split.
  - destruct (py_in "mcp_client" names || py_in "mcp_test_server" names);
      repeat constructor.
  - destruct (py_in "mcp_test_server" names); [|constructor].
    constructor; [right; reflexivity | constructor].
Qed.

Lemma for_each_mark_app (xs ys : list loc) (w : World) :
  for_each (xs ++ ys) mark_item w =
  for_each ys mark_item (world_after (for_each xs mark_item) w).
Proof.
  revert w. induction xs as [|x xs IH]; intros w; [reflexivity|].
  destruct (mark_item_run x w) as (Hok & _ & _).
  change ((x :: xs) ++ ys) with (x :: (xs ++ ys)).
  rewrite (for_each_bind_run x (xs ++ ys) mark_item w Hok), IH.
  unfold world_after at 3.
  rewrite (for_each_bind_run x xs mark_item w Hok). reflexivity.
Qed.

(** X1: an item the collected list does not refer to is left exactly as it
    was by [pytest_collection_modifyitems], and the hook logs nothing. *)
Theorem collection_leaves_unlisted_items
    (config : Config) (items : list loc) (w : World) (item : loc) :
  ~ In item items ->
  let hook := pytest_collection_modifyitems config items in
  heap (world_after hook w) item = heap w item /\
  log (world_after hook w) = log w.
Proof.
  intros Hnot hook. unfold hook, pytest_collection_modifyitems.
  destruct (collection_run items w) as (_ & Hlog & Hheap).
  split; [|exact Hlog].
  rewrite Hheap. unfold times_listed.
  apply (count_occ_not_In Nat.eq_dec) in Hnot. rewrite Hnot. reflexivity.
Qed.

Lemma collection_leaves_unlisted_items_witness :
  heap (world_after (pytest_collection_modifyitems sample_config [0; 2]) sample_world) 1
  = heap sample_world 1.
Proof.
  apply (collection_leaves_unlisted_items sample_config [0; 2] sample_world 1).
  simpl. intros [H|[H|[]]]; discriminate H.
Defined.

(** X2: [pytest_collection_modifyitems] only ever appends to an item's own
    markers, and what it appends are [mcp] and [mcp_integration] marks:
    the markers the item had stay in front, in order, and the item's node
    id and fixture names are not changed. *)
Theorem collection_only_appends_auto_markers
    (config : Config) (items : list loc) (w : World) (item : loc) :
  let hook := pytest_collection_modifyitems config items in
  exists added,
    heap (world_after hook w) item =
      mkItem (nodeid (heap w item)) (fixturenames (heap w item))
             (own_markers (heap w item) ++ added) /\
    Forall is_auto_marker added.
Proof.
  intros hook. unfold hook, pytest_collection_modifyitems.
  destruct (collection_run items w) as (_ & _ & Hheap).
  eexists. split.
  - rewrite Hheap. apply iter_tagged.
  - apply Forall_concat, Forall_replicate, auto_marks_only.
Qed.

(** X3: an item without the [fixturenames] attribute is left exactly as it
    was, however often the collected list refers to it. *)
Theorem collection_skips_items_without_fixturenames
    (config : Config) (items : list loc) (w : World) (item : loc) :
  fixturenames (heap w item) = None ->
  heap (world_after (pytest_collection_modifyitems config items) w) item
  = heap w item.
Proof.
  intros Hnone. unfold pytest_collection_modifyitems.
  destruct (collection_run items w) as (_ & _ & Hheap).
  rewrite Hheap, iter_tagged, Hnone. cbn [auto_marks].
  rewrite concat_replicate_nil, app_nil_r.
  destruct (heap w item); cbn in *; congruence.
Qed.

Lemma collection_skips_items_without_fixturenames_witness :
  heap (world_after (pytest_collection_modifyitems sample_config [3; 0; 3])
          sample_world) 3
  = heap sample_world 3.
Proof.
  apply (collection_skips_items_without_fixturenames sample_config [3; 0; 3]
           sample_world 3).
  reflexivity.
Defined.

(** X4: running [pytest_collection_modifyitems] on a list that is two
    lists joined is running it on the first and then, in the world that
    leaves, on the second. *)
Theorem collection_concat
    (config : Config) (items1 items2 : list loc) (w : World) :
  pytest_collection_modifyitems config (items1 ++ items2) w =
  pytest_collection_modifyitems config items2
    (world_after (pytest_collection_modifyitems config items1) w).
Proof.
  unfold pytest_collection_modifyitems. apply for_each_mark_app.
Qed.


(** X6: for an item the list refers to exactly once, the markers added are
    [mcp] then [mcp_integration] when the fixture names contain
    [mcp_test_server] (with or without [mcp_client]: [mcp] comes once),
    [mcp] alone when they contain [mcp_client] but not [mcp_test_server],
    and none when they contain neither. *)
Theorem collection_markers_of_item_listed_once
    (config : Config) (items : list loc) (w : World)
    (item : loc) (names : list string) :
  times_listed item items = 1 ->
  fixturenames (heap w item) = Some names ->
  let hook := pytest_collection_modifyitems config items in
  let added := markers_added (heap w item) (heap (world_after hook w) item) in
  (In "mcp_test_server" names -> added = ["mcp"; "mcp_integration"]) /\
  (In "mcp_client" names -> ~ In "mcp_test_server" names -> added = ["mcp"]) /\
  (~ In "mcp_client" names -> ~ In "mcp_test_server" names -> added = []).
Proof.
  intros Honce Hnames hook added.
  destruct (collection_effect config items w) as (_ & _ & Hitem).
  destruct (Hitem item) as (_ & _ & _ & Hadded).
  fold hook in Hadded. fold added in Hadded.
  rewrite Hadded, Honce, Hnames. cbn [replicate concat auto_marks].
  rewrite app_nil_r.
  rewrite <- !py_in_false, <- !py_in_In.
  destruct (py_in "mcp_client" names), (py_in "mcp_test_server" names);
    cbn [orb app]; repeat split; intros; congruence.
Qed.

Lemma collection_markers_of_item_listed_once_witness :
  markers_added (heap sample_world 1)
    (heap (world_after (pytest_collection_modifyitems sample_config [0; 1; 2])
             sample_world) 1)
  = ["mcp"; "mcp_integration"].
Proof.
  apply (collection_markers_of_item_listed_once sample_config [0; 1; 2]
           sample_world 1 ["tmp_path"; "mcp_test_server"]).
  - reflexivity.
  - reflexivity.
  - simpl. auto.
Defined.

(** ** Configuration and collection together *)

(** X7: every marker [pytest_collection_modifyitems] gives an item is one
    that [pytest_configure] declares in the ini value [markers]. *)
Theorem auto_markers_are_registered
    (config : Config) (items : list loc) (w : World) (item : loc) (m : string)
    (config0 : Config) (w0 : World) :
  In m (markers_added (heap w item)
          (heap (world_after (pytest_collection_modifyitems config items) w) item)) ->
  exists config',
    outcome (pytest_configure config0) w0 = Ok config' /\
    In m (map marker_name (lines_added "markers" config0 config')).
Proof.
  intros Hm.
  destruct (collection_effect config items w) as (_ & _ & Hitem).
  destruct (Hitem item) as (_ & _ & _ & Hadded).
  cbv zeta in Hadded. rewrite Hadded in Hm.
  apply In_concat_replicate in Hm as [_ Hm].
  pose proof (auto_marks_only (fixturenames (heap w item))) as Hauto.
  rewrite Forall_forall in Hauto. apply list_elem_of_In, Hauto in Hm.
  eexists. unfold outcome. rewrite pytest_configure_run. cbn [fst].
  split; [reflexivity|].
  unfold lines_added. cbn [inilines]. rewrite drop_app_length.
  destruct Hm as [-> | ->]; vm_compute; auto.
Qed.

Lemma auto_markers_are_registered_witness :
  exists config',
    outcome (pytest_configure bare_config) bare_world = Ok config' /\
    In "mcp_integration" (map marker_name (lines_added "markers" bare_config config')).
Proof.
  apply (auto_markers_are_registered sample_config [0; 1; 2] sample_world 1
           "mcp_integration" bare_config bare_world).
  simpl. auto.
Defined.

Lemma asyncio_defaulted_lookup (ns : namespace) :
  asyncio_defaulted ns !! "asyncio_mode" =
  match ns !! "asyncio_mode" with
  | Some mode => Some (if truthy mode then mode else PyStr "auto")
  | None => None
  end.
Proof.
  unfold asyncio_defaulted.
  destruct (ns !! "asyncio_mode") as [mode|] eqn:Hmode; [|exact Hmode].
  destruct (truthy mode); [exact Hmode | apply lookup_insert_eq].
Qed.

Lemma asyncio_defaulted_truthy (ns : namespace) (mode : pyval) :
  asyncio_defaulted ns !! "asyncio_mode" = Some mode -> truthy mode = true.
Proof.
  rewrite asyncio_defaulted_lookup.
  destruct (ns !! "asyncio_mode") as [old|]; [|discriminate].
  destruct (truthy old) eqn:Hold; intros [= <-]; [exact Hold | reflexivity].
Qed.

Lemma asyncio_defaulted_idempotent (ns : namespace) :
  asyncio_defaulted (asyncio_defaulted ns) = asyncio_defaulted ns.
Proof.
  unfold asyncio_defaulted at 1.
  destruct (asyncio_defaulted ns !! "asyncio_mode") as [mode|] eqn:Hmode;
    [|reflexivity].
  rewrite (asyncio_defaulted_truthy ns mode Hmode). reflexivity.
Qed.

(** X8: after [pytest_configure], an [asyncio_mode] that is present is
    truthy, and the attribute is present exactly when it was before; so
    configuring the resulting configuration again changes nothing in its
    option namespace. *)
Theorem pytest_configure_asyncio_settled
    (config : Config) (w w' : World) :
  exists config1 config2,
    outcome (pytest_configure config) w = Ok config1 /\
    outcome (pytest_configure config1) w' = Ok config2 /\
    (forall mode, cfg_option config1 !! "asyncio_mode" = Some mode ->
                  truthy mode = true) /\
    (is_Some (cfg_option config1 !! "asyncio_mode") <->
     is_Some (cfg_option config !! "asyncio_mode")) /\
    cfg_option config2 = cfg_option config1.
Proof.
  do 2 eexists. unfold outcome. rewrite !pytest_configure_run. cbn [fst cfg_option].
  split; [reflexivity|]. split; [reflexivity|].
  split; [apply asyncio_defaulted_truthy|].
  split; [|apply asyncio_defaulted_idempotent].
  cbn [cfg_option]. rewrite asyncio_defaulted_lookup.
  destruct (cfg_option config !! "asyncio_mode"); split; eauto.
Qed.

(** X9: [pytest_configure] does not touch the item store and keeps the
    log records that were there; behind them it writes one record, of
    level [DEBUG], when the logger is enabled for [DEBUG], and nothing
    when it is not (the default); the ini lines that were there stay in
    front of the new ones. *)
Theorem pytest_configure_frame (config : Config) (w : World) :
  let w' := world_after (pytest_configure config) w in
  heap w' = heap w /\
  debug_enabled w' = debug_enabled w /\
  (debug_enabled w = true -> exists msg, log w' = log w ++ [(DEBUG, msg)]) /\
  (debug_enabled w = false -> w' = w) /\
  exists config' lines,
    outcome (pytest_configure config) w = Ok config' /\
    inilines config' = inilines config ++ lines.
Proof.
  intros w'. unfold w', world_after, outcome.
  rewrite pytest_configure_run. cbn [fst snd inilines].
  destruct (debug_enabled w) eqn:Hdebug; cbn [heap log debug_enabled].
  - split; [reflexivity|]. split; [reflexivity|].
    split; [intros _; eexists; reflexivity|]. split; [discriminate|].
    do 2 eexists. split; reflexivity.
  - split; [reflexivity|]. split; [exact Hdebug|].
    split; [discriminate|]. split; [reflexivity|].
    do 2 eexists. split; reflexivity.
Qed.

(** ** The report header *)

Section Reporting.

Variable py_str : pyval -> string.

(** X10: the header depends on the configuration only through the two
    attributes [mcp_log_level] and [mcp_timeout]: configurations that
    agree on both give the same header lines, in whatever world. *)
Theorem pytest_report_header_reads_two_attributes
    (config1 config2 : Config) (w1 w2 : World) :
  cfg_option config1 !! "mcp_log_level" = cfg_option config2 !! "mcp_log_level" ->
  cfg_option config1 !! "mcp_timeout" = cfg_option config2 !! "mcp_timeout" ->
  outcome (pytest_report_header py_str config1) w1 =
  outcome (pytest_report_header py_str config2) w2.
Proof.
  intros Hlevel Htimeout. unfold outcome.
  rewrite !pytest_report_header_run. cbn [fst].
  unfold log_level_header, timeout_header. rewrite Hlevel, Htimeout. reflexivity.
Qed.

(** X11: the header has one line for each of the two attributes that is
    present, so at most two, and every line starts with the tag [mcp: ]. *)
Theorem pytest_report_header_shape (config : Config) (w : World) :
  exists headers,
    outcome (pytest_report_header py_str config) w = Ok headers /\
    length headers = reported_attributes (cfg_option config) /\
    length headers <= 2 /\
    Forall (fun line => has_mcp_tag line = true) headers.
Proof.
  eexists. unfold outcome. rewrite pytest_report_header_run. cbn [fst].
  split; [reflexivity|].
  unfold log_level_header, timeout_header, reported_attributes, hasattr.
  destruct (cfg_option config !! "mcp_log_level") as [lvl|];
    destruct (cfg_option config !! "mcp_timeout") as [t|];
    rewrite ?(bool_decide_eq_true_2 (is_Some (Some _))) by eauto;
    rewrite ?(bool_decide_eq_false_2 (is_Some None)) by (intros [? ?]; discriminate);
    cbn [app length Nat.add];
    (split; [reflexivity|]); (split; [lia|]);
    repeat constructor.
Qed.

(** ** The exception hook *)

(** X12: [pytest_exception_interact] does not touch the item store, keeps
    the log records that were there and adds at most one, of level
    [ERROR]. *)
Theorem pytest_exception_interact_frame
    (node : loc) (call : CallInfo) (report : unit) (w : World) :
  let w' := world_after (pytest_exception_interact py_str node call report) w in
  heap w' = heap w /\
  exists records,
    log w' = log w ++ records /\
    length records <= 1 /\
    Forall (fun r => r.1 = ERROR) records.
Proof.
  intros w'. unfold w', world_after.
  rewrite pytest_exception_interact_run. cbn [snd].
  destruct (excinfo call) as [info|].
  - destruct (enriched_message py_str (nodeid (heap w node)) info) as [msg|].
    + split; [reflexivity|]. exists [(ERROR, msg)]. cbn [heap log length].
      split; [reflexivity|]. split; [lia|]. repeat constructor.
    + split; [reflexivity|]. exists []. rewrite app_nil_r.
      split; [reflexivity|]. split; [cbn; lia | constructor].
  - split; [reflexivity|]. exists []. rewrite app_nil_r.
    split; [reflexivity|]. split; [cbn; lia | constructor].
Qed.

End Reporting.

Lemma pytest_report_header_reads_two_attributes_witness :
  outcome (pytest_report_header tag_str sample_config) sample_world =
  outcome (pytest_report_header tag_str bare_config) bare_world.
Proof.
  apply (pytest_report_header_reads_two_attributes tag_str sample_config bare_config
           sample_world bare_world); vm_compute; reflexivity.
Defined.

(** ** The option hook on a parser that already has one of the names *)



Example addoption_twice_raises :
  pytest_addoption (parser_after pytest_addoption sample_parser)
  = (Raise (ValueError ["--mcp-log-level"]),
     parser_after pytest_addoption sample_parser).
Proof. vm_compute. reflexivity. Qed.

Example addoption_partial :
  let parser : Parser :=
    <["mcp" := [mkOpt "--mcp-timeout" store None PyNone "taken"] ]> ∅ in
  outcome pytest_addoption parser = Raise (ValueError ["--mcp-timeout"]) /\
  map opt_name (default [] (parser_after pytest_addoption parser !! "mcp"))
  = ["--mcp-timeout"; "--mcp-log-level"].
Proof. vm_compute. split; reflexivity. Qed.

Example configure_default_level_logs_nothing :
  world_after (pytest_configure sample_config) sample_world = sample_world.
Proof. reflexivity. Qed.
